(** * hooks/lib/ios/projectEntitlements.js

    Shallow embedding of the iOS entitlements hook of
    cordova-universal-links-plugin.  The module keeps mutable module-level
    variables ([context], [projectName], [debugEntitlementsFilePath],
    [releaseEntitlementsFilePath]) and talks to the file system through
    [fs.readFileSync], [mkpath.sync] and [fs.writeFileSync]; JavaScript
    exceptions escape through all of them.  We therefore model the code in a
    small state-and-exception monad over a [State] that holds both the module
    variables and the file system.  An exception leaves the state reached so
    far in place, as a thrown JavaScript exception does. *)

From Stdlib Require Import String List Bool ZArith Lia.
Import ListNotations.
Open Scope string_scope.
Open Scope list_scope.

(** ** Property-list values and JavaScript objects *)

(** The values [plist.parse] yields and [plist.build] accepts. *)
#[warnings="-register-all"]
Inductive pvalue : Type :=
| PString (s : string)
| PInteger (z : Z)
| PBool (b : bool)
| PArray (l : list pvalue)
| PDict (d : list (string * pvalue)).

(** An entitlements document: the top-level JavaScript object, as its keys
    in enumeration order.  Keys of a JavaScript object are unique. *)
Definition doc := list (string * pvalue).

(** [o[k]] read on a plain object. *)
Fixpoint obj_get (k : string) (o : doc) : option pvalue :=
  match o with
  | [] => None
  | (k', v) :: r => if String.eqb k k' then Some v else obj_get k r
  end.

(** [o[k] = v]: an existing key keeps its place and gets the new value, a
    new key is added last in enumeration order. *)
Fixpoint obj_set (k : string) (v : pvalue) (o : doc) : doc :=
  match o with
  | [] => [(k, v)]
  | (k', v') :: r => if String.eqb k k' then (k, v) :: r else (k', v') :: obj_set k v r
  end.

(** ** Inputs *)

Record host := mkHost { name : string }.
Record pluginPreferences := mkPrefs { hosts : list host }.

(** A file path, as its list of segments: [path.join] appends segments and
    [path.dirname] drops the last one (no normalisation of [..] is needed for
    the paths this module builds). *)
Definition path := list string.

Definition path_eqb (p q : path) : bool :=
  if list_eq_dec string_dec p q then true else false.

Definition dirname (p : path) : path := removelast p.

(** The cordova context: [context.opts.projectRoot], and the project name the
    configuration declares. *)
Record cordovaContext := mkCtx {
  projectRoot : path;
  configProjectName : string
}.

Definition ASSOCIATED_DOMAINS : string := "com.apple.developer.associated-domains".

(** ** Associated-domains content (pure part of the module) *)

(** [domainsListEntryForHost] *)
Definition domainsListEntryForHost (h : host) : string :=
  String.append "applinks:" (name h).

(** One iteration of the [forEach] of [generateAssociatedDomainsContent]:
    [domainsList.indexOf(link) == -1] compares strings with [===]. *)
Definition addLink (domainsList : list string) (h : host) : list string :=
  let link := domainsListEntryForHost h in
  if existsb (String.eqb link) domainsList then domainsList
  else domainsList ++ [link].

(** [generateAssociatedDomainsContent] *)
Definition generateAssociatedDomainsContent (prefs : pluginPreferences) : list string :=
  fold_left addLink (hosts prefs) [].

(** [injectPreferences]: [newEntitlements] aliases the document it receives,
    which the caller never uses again, so the update is modelled as a new
    document. *)
Definition injectPreferences (currentEntitlements : doc) (prefs : pluginPreferences) : doc :=
  let content := generateAssociatedDomainsContent prefs in
  obj_set ASSOCIATED_DOMAINS (PArray (map PString content)) currentEntitlements.

(** The spec's description of the list: the entries [applinks:<name>] of
    the hosts, duplicates dropped after their first occurrence (the head is
    kept and its later copies are removed from the rest). *)
Fixpoint dedup_first (l : list string) : list string :=
  match l with
  | [] => []
  | x :: r => x :: filter (fun y => negb (String.eqb x y)) (dedup_first r)
  end.

Definition spec_associated_domains (hs : list host) : list string :=
  dedup_first (map (fun h => String.append "applinks:" (name h)) hs).

(** ** Errors and state *)

(** The JavaScript exceptions the module can see. *)
Inductive exn : Type :=
| ENOENT (p : path)        (* fs.readFileSync on a missing file *)
| EParse                   (* plist.parse on content that is not a plist *)
| EMkdir (p : path)        (* mkpath.sync refused *)
| EWrite (p : path)        (* fs.writeFileSync refused *)
| ETypeError.              (* a property read on undefined *)

(** The result of a call: a value, or a thrown exception. *)
Inductive outcome (A : Type) : Type :=
| Ok (a : A)
| Throw (e : exn).
Arguments Ok {A} a.
Arguments Throw {A} e.

(** The file system: file contents, and which [mkpath.sync] calls and
    which file writes the environment lets succeed (existing or creatable
    directories, permissions, free space: fixed for a run).  Directories
    themselves are not observed by this module and are not tracked. *)
Record FS (text : Type) := mkFS {
  files : path -> option text;
  can_create : path -> bool;
  can_write : path -> bool
}.
Arguments mkFS {text}.
Arguments files {text}.
Arguments can_create {text}.
Arguments can_write {text}.

(** The file map after [p] is written with [c]. *)
Definition upd_file {text : Type} (p : path) (c : text) (g : path -> option text) : path -> option text :=
  fun q => if path_eqb q p then Some c else g q.

(** The module-level variables and the file system. *)
Record State (text : Type) := mkState {
  st_fs : FS text;
  st_context : option cordovaContext;
  st_projectName : option string;
  st_debugPath : option path;
  st_releasePath : option path
}.
Arguments mkState {text}.
Arguments st_fs {text}.
Arguments st_context {text}.
Arguments st_projectName {text}.
Arguments st_debugPath {text}.
Arguments st_releasePath {text}.

Definition set_context {text : Type} (c : cordovaContext) (s : State text) : State text :=
  mkState (st_fs s) (Some c) (st_projectName s) (st_debugPath s) (st_releasePath s).
Definition set_projectName {text : Type} (n : string) (s : State text) : State text :=
  mkState (st_fs s) (st_context s) (Some n) (st_debugPath s) (st_releasePath s).
Definition set_debugPath {text : Type} (p : path) (s : State text) : State text :=
  mkState (st_fs s) (st_context s) (st_projectName s) (Some p) (st_releasePath s).
Definition set_releasePath {text : Type} (p : path) (s : State text) : State text :=
  mkState (st_fs s) (st_context s) (st_projectName s) (st_debugPath s) (Some p).
Definition set_fs {text : Type} (f : FS text) (s : State text) : State text :=
  mkState f (st_context s) (st_projectName s) (st_debugPath s) (st_releasePath s).

(** ** Concrete inputs for the examples

    A stand-in for the [plist] library: the text of a file is the document
    it holds, and [None] is text that is not a property list. *)
Definition example_build (d : doc) : option doc := Some d.
Definition example_parse (t : option doc) : option doc := t.

Definition ctx_app : cordovaContext := mkCtx ["home"; "app"] "App".
Definition ctx_other : cordovaContext := mkCtx ["tmp"; "other"] "Other".
Definition prefs_ab : pluginPreferences :=
  mkPrefs [mkHost "a.com"; mkHost "b.com"; mkHost "a.com"].

Definition app_debug : path :=
  ["home"; "app"; "platforms"; "ios"; "App"; "Entitlements-Debug.plist"].
Definition app_release : path :=
  ["home"; "app"; "platforms"; "ios"; "App"; "Entitlements-Release.plist"].
Definition other_debug : path :=
  ["tmp"; "other"; "platforms"; "ios"; "Other"; "Entitlements-Debug.plist"].
Definition other_release : path :=
  ["tmp"; "other"; "platforms"; "ios"; "Other"; "Entitlements-Release.plist"].

(** A file system holding [dbg] and [rel] at the paths of [ctx_app]; every
    directory can be created, and [cw_release] says whether the release file
    may be written. *)
Definition fs_with (dbg rel : option (option doc)) (cw_release : bool) : FS (option doc) :=
  mkFS (fun p => if path_eqb p app_debug then dbg
                 else if path_eqb p app_release then rel else None)
       (fun _ => true)
       (fun p => if path_eqb p app_release then cw_release else true).

(** A freshly loaded module: no module variable set yet. *)
Definition fresh (f : FS (option doc)) : State (option doc) := mkState f None None None None.

Definition st_empty : State (option doc) := fresh (fs_with None None true).
Definition st_malformed : State (option doc) := fresh (fs_with (Some None) None true).
Definition st_other_key : State (option doc) :=
  fresh (fs_with (Some (Some [("other-key", PString "value")])) None true).
Definition st_release_refused : State (option doc) := fresh (fs_with None None false).
(** The same files, in a module that already memoised the paths of [ctx_other]. *)
Definition st_cached_other : State (option doc) :=
  mkState (fs_with None None true) (Some ctx_other) (Some "Other")
          (Some other_debug) (Some other_release).

Section Plist.

(** The [plist] library: serialised property-list text, [plist.build] and
    [plist.parse]; [plist.parse] throws on content that is not a property
    list, which is [None] here. *)
Variable text : Type.
Variable plist_build : doc -> text.
Variable plist_parse : text -> option doc.

(** ** The state-and-exception monad *)

Definition M (A : Type) : Type := State text -> State text * outcome A.

Definition ret {A} (a : A) : M A := fun s => (s, Ok a).
Definition throw {A} (e : exn) : M A := fun s => (s, Throw e).
Definition bind {A B} (m : M A) (k : A -> M B) : M B :=
  fun s => match m s with
           | (s', Ok a) => k a s'
           | (s', Throw e) => (s', Throw e)
           end.
(** [try { m } catch (err) { h(err) }] *)
Definition try_catch {A} (m : M A) (h : exn -> M A) : M A :=
  fun s => match m s with
           | (s', Ok a) => (s', Ok a)
           | (s', Throw e) => h e s'
           end.
Definition modify (f : State text -> State text) : M unit := fun s => (f s, Ok tt).
Definition get : M (State text) := fun s => (s, Ok s).

Notation "x <- m ;; k" := (bind m (fun x => k)) (at level 61, m at next level, right associativity).
Notation "m ;;; k" := (bind m (fun _ => k)) (at level 61, right associativity).

(** ** File-system primitives *)

Definition readFileSync (p : path) : M text :=
  fun s => match files (st_fs s) p with
           | Some c => (s, Ok c)
           | None => (s, Throw (ENOENT p))
           end.

(** [mkpath.sync(d)]: throws when the directory can be neither found nor
    created. *)
Definition mkpath_sync (d : path) : M unit :=
  fun s => if can_create (st_fs s) d then (s, Ok tt) else (s, Throw (EMkdir d)).

(** [fs.writeFileSync(p, c, 'utf8')]: replaces the whole content of [p]; the
    parent directory exists, [mkpath.sync] ran before. *)
Definition writeFileSync (p : path) (c : text) : M unit :=
  fun s => let f := st_fs s in
           if can_write f p
           then (set_fs (mkFS (upd_file p c (files f)) (can_create f) (can_write f)) s, Ok tt)
           else (s, Throw (EWrite p)).

Definition plist_parse_m (c : text) : M doc :=
  match plist_parse c with
  | Some d => ret d
  | None => throw EParse
  end.

(** ** Path helpers (memoised in module variables) *)

Definition getContext : M cordovaContext :=
  fun s => match st_context s with
           | Some c => (s, Ok c)
           | None => (s, Throw ETypeError)
           end.

Definition getProjectRoot : M path :=
  c <- getContext ;; ret (projectRoot c).

(** Modelled from the spec: [ConfigXmlHelper] (hooks/lib/configXmlHelper.js,
    not part of this source set) yields "projectName: string, derived from
    project configuration"; here it is the name the context's configuration
    declares. *)
Definition configXmlHelper_getProjectName (c : cordovaContext) : string :=
  configProjectName c.

Definition getProjectName : M string :=
  fun s => match st_projectName s with
           | Some n => (s, Ok n)
           | None => (c <- getContext ;;
                      let n := configXmlHelper_getProjectName c in
                      modify (set_projectName n) ;;; ret n) s
           end.

Definition pathToDebugEntitlementsFile : M path :=
  fun s => match st_debugPath s with
           | Some p => (s, Ok p)
           | None => (r <- getProjectRoot ;;
                      n <- getProjectName ;;
                      let p := r ++ ["platforms"; "ios"; n; "Entitlements-Debug.plist"] in
                      modify (set_debugPath p) ;;; ret p) s
           end.

Definition pathToReleaseEntitlementsFile : M path :=
  fun s => match st_releasePath s with
           | Some p => (s, Ok p)
           | None => (r <- getProjectRoot ;;
                      n <- getProjectName ;;
                      let p := r ++ ["platforms"; "ios"; n; "Entitlements-Release.plist"] in
                      modify (set_releasePath p) ;;; ret p) s
           end.

(** ** Entitlements content *)

Definition defaultEntitlementsFile : doc := [].

(** The [try] covers [fs.readFileSync] only; [plist.parse] runs after it. *)
Definition getDebugEntitlementsFileContent : M doc :=
  pathToFile <- pathToDebugEntitlementsFile ;;
  content <- try_catch (c <- readFileSync pathToFile ;; ret (Some c))
                       (fun _ => ret None) ;;
  match content with
  | None => ret defaultEntitlementsFile
  | Some c => plist_parse_m c
  end.

Definition getReleaseEntitlementsFileContent : M doc :=
  pathToFile <- pathToReleaseEntitlementsFile ;;
  content <- try_catch (c <- readFileSync pathToFile ;; ret (Some c))
                       (fun _ => ret None) ;;
  match content with
  | None => ret defaultEntitlementsFile
  | Some c => plist_parse_m c
  end.

(** ** Writing *)

Definition saveContentToEntitlementsFile (debugContent releaseContent : doc) : M unit :=
  let debugPlistContent := plist_build debugContent in
  let releasePlistContent := plist_build releaseContent in
  debugFilePath <- pathToDebugEntitlementsFile ;;
  releaseFilePath <- pathToReleaseEntitlementsFile ;;
  mkpath_sync (dirname debugFilePath) ;;;
  mkpath_sync (dirname releaseFilePath) ;;;
  writeFileSync debugFilePath debugPlistContent ;;;
  writeFileSync releaseFilePath releasePlistContent.

(** [generateEntitlements], exported as [generateAssociatedDomainsEntitlements]. *)
Definition generateEntitlements (cordovaCtx : cordovaContext) (prefs : pluginPreferences) : M unit :=
  modify (set_context cordovaCtx) ;;;
  currentDebugEntitlements <- getDebugEntitlementsFileContent ;;
  currentReleaseEntitlements <- getReleaseEntitlementsFileContent ;;
  let newDebugEntitlements := injectPreferences currentDebugEntitlements prefs in
  let newReleaseEntitlements := injectPreferences currentReleaseEntitlements prefs in
  saveContentToEntitlementsFile newDebugEntitlements newReleaseEntitlements.

(** ** Closed forms used in the proofs *)

Definition mem (y : string) (l : list string) : bool := existsb (String.eqb y) l.

(** The values the memoised helpers yield in state [s] for context [c]. *)
Definition proj_name (c : cordovaContext) (s : State text) : string :=
  match st_projectName s with
  | Some n => n
  | None => configXmlHelper_getProjectName c
  end.

Definition dbg_path (c : cordovaContext) (s : State text) : path :=
  match st_debugPath s with
  | Some p => p
  | None => projectRoot c ++ ["platforms"; "ios"; proj_name c s; "Entitlements-Debug.plist"]
  end.

Definition rel_path (c : cordovaContext) (s : State text) : path :=
  match st_releasePath s with
  | Some p => p
  | None => projectRoot c ++ ["platforms"; "ios"; proj_name c s; "Entitlements-Release.plist"]
  end.

(** What reading a target file yields, from its content ([None]: missing). *)
Definition read_doc (fc : option text) : outcome doc :=
  match fc with
  | None => Ok defaultEntitlementsFile
  | Some c => match plist_parse c with
              | Some d => Ok d
              | None => Throw EParse
              end
  end.

(** Effect of the writing phase on the file map, and its outcome. *)
Definition save_effect (f : FS text) (dp rp : path) (dt rt : text)
  : (path -> option text) * outcome unit :=
  if can_create f (dirname dp) then
    if can_create f (dirname rp) then
      if can_write f dp then
        if can_write f rp then (upd_file rp rt (upd_file dp dt (files f)), Ok tt)
        else (upd_file dp dt (files f), Throw (EWrite rp))
      else (files f, Throw (EWrite dp))
    else (files f, Throw (EMkdir (dirname rp)))
  else (files f, Throw (EMkdir (dirname dp))).

(** Effect of a whole run on the file map, and its outcome. *)
Definition gen_effect (f : FS text) (dp rp : path) (prefs : pluginPreferences)
  : (path -> option text) * outcome unit :=
  match read_doc (files f dp) with
  | Throw e => (files f, Throw e)
  | Ok dd =>
      match read_doc (files f rp) with
      | Throw e => (files f, Throw e)
      | Ok rd => save_effect f dp rp (plist_build (injectPreferences dd prefs))
                                     (plist_build (injectPreferences rd prefs))
      end
  end.

(** * Properties *)

(** ** Objects *)

Lemma obj_get_set_same (k : string) (v : pvalue) (o : doc) :
  obj_get k (obj_set k v o) = Some v.
Proof.
  induction o as [|[k' v'] r IH]; simpl.
  - now rewrite String.eqb_refl.
  - destruct (String.eqb k k') eqn:E; simpl.
    + now rewrite String.eqb_refl.
    + now rewrite E.
Qed.

Lemma obj_get_set_other (k k' : string) (v : pvalue) (o : doc) :
  k' <> k -> obj_get k' (obj_set k v o) = obj_get k' o.
Proof.
  intros Hne. induction o as [|[k'' v'] r IH]; simpl.
  - apply String.eqb_neq in Hne. now rewrite Hne.
  - destruct (String.eqb k k'') eqn:E; simpl.
    + apply String.eqb_eq in E; subst k''.
      apply String.eqb_neq in Hne. now rewrite Hne.
    + now rewrite IH.
Qed.

Lemma obj_set_set (k : string) (v w : pvalue) (o : doc) :
  obj_set k v (obj_set k w o) = obj_set k v o.
Proof.
  induction o as [|[k' v'] r IH]; simpl.
  - now rewrite String.eqb_refl.
  - destruct (String.eqb k k') eqn:E; simpl.
    + now rewrite String.eqb_refl.
    + now rewrite E, IH.
Qed.

(** ** The associated-domains list *)

Lemma filter_filter_and (f g : string -> bool) (l : list string) :
  filter f (filter g l) = filter (fun y => g y && f y) l.
Proof.
  induction l as [|y r IH]; simpl; [reflexivity|].
  destruct (g y); simpl; [destruct (f y); simpl; now rewrite IH | exact IH].
Qed.

Lemma mem_app_single (y x : string) (acc : list string) :
  mem y (acc ++ [x]) = mem y acc || String.eqb y x.
Proof.
  unfold mem. rewrite existsb_app. simpl. now rewrite orb_false_r.
Qed.

Lemma fold_addLink (hs : list host) (acc : list string) :
  fold_left addLink hs acc =
  acc ++ filter (fun y => negb (mem y acc)) (dedup_first (map domainsListEntryForHost hs)).
Proof.
  revert acc. induction hs as [|h r IH]; intros acc.
  - cbn [fold_left map dedup_first filter]. now rewrite app_nil_r.
  - cbn [fold_left map dedup_first]. rewrite IH. unfold addLink.
    set (x := domainsListEntryForHost h).
    set (D := dedup_first (map domainsListEntryForHost r)).
    cbn [filter].
    change (existsb (String.eqb x) acc) with (mem x acc).
    destruct (mem x acc) eqn:Ex; cbn [negb].
    + rewrite filter_filter_and. f_equal. apply filter_ext. intros y.
      destruct (String.eqb x y) eqn:Exy; cbn [negb andb]; [|reflexivity].
      apply String.eqb_eq in Exy. subst y. now rewrite Ex.
    + rewrite <- app_assoc. cbn [app]. f_equal. f_equal.
      rewrite filter_filter_and. apply filter_ext. intros y.
      rewrite mem_app_single, String.eqb_sym.
      destruct (mem y acc), (String.eqb x y); reflexivity.
Qed.


Lemma filter_true (l : list string) (f : string -> bool) :
  (forall y, f y = true) -> filter f l = l.
Proof.
  intros Hf. induction l as [|y r IH]; cbn [filter]; [reflexivity|].
  now rewrite Hf, IH.
Qed.

(** Sanity checks on the examples of the spec. *)
Example dedup_example :
  generateAssociatedDomainsContent
    (mkPrefs [mkHost "a.com"; mkHost "b.com"; mkHost "a.com"])
  = ["applinks:a.com"; "applinks:b.com"].
Proof. reflexivity. Qed.

Example preservation_example :
  injectPreferences [("other-key", PString "value")] (mkPrefs [mkHost "x.com"])
  = [("other-key", PString "value");
     (ASSOCIATED_DOMAINS, PArray [PString "applinks:x.com"])].
Proof. reflexivity. Qed.

(** C1: the associated-domains list computed from the host list, and stored
    under [com.apple.developer.associated-domains], is the list of entries
    ["applinks:" ++ name] of the hosts, duplicates (by string equality of the
    entry) dropped after their first occurrence, in input order. *)
Theorem associated_domains_first_occurrence (prefs : pluginPreferences) (d : doc) :
  generateAssociatedDomainsContent prefs = spec_associated_domains (hosts prefs) /\
  obj_get ASSOCIATED_DOMAINS (injectPreferences d prefs)
  = Some (PArray (map PString (spec_associated_domains (hosts prefs)))).
Proof.
  assert (E : generateAssociatedDomainsContent prefs = spec_associated_domains (hosts prefs)).
  { unfold generateAssociatedDomainsContent, spec_associated_domains.
    rewrite fold_addLink. cbn [app]. apply filter_true. reflexivity. }
  split; [exact E|].
  unfold injectPreferences. rewrite E. apply obj_get_set_same.
Qed.

(** C3: [injectPreferences] leaves every key other than
    [com.apple.developer.associated-domains] as it was and stores the newly
    computed list under that key, whatever it held before. *)
Theorem injectPreferences_frame (d : doc) (prefs : pluginPreferences) :
  (forall k, k <> ASSOCIATED_DOMAINS ->
             obj_get k (injectPreferences d prefs) = obj_get k d) /\
  obj_get ASSOCIATED_DOMAINS (injectPreferences d prefs)
  = Some (PArray (map PString (generateAssociatedDomainsContent prefs))).
Proof.
  unfold injectPreferences. split.
  - intros k Hk. now apply obj_get_set_other.
  - apply obj_get_set_same.
Qed.

(** C5: with an empty host list the key
    [com.apple.developer.associated-domains] is present and holds the empty
    list. *)
Theorem injectPreferences_no_hosts (d : doc) :
  obj_get ASSOCIATED_DOMAINS (injectPreferences d (mkPrefs [])) = Some (PArray []).
Proof.
  unfold injectPreferences. apply obj_get_set_same.
Qed.

(** ** A run of [generateEntitlements] *)

Ltac case_matches :=
  repeat match goal with
  | |- context [match ?x with _ => _ end] =>
      lazymatch x with
      | context [match _ with _ => _ end] => fail
      | (_, _) => fail
      | _ => destruct x eqn:?
      end
  end.

Lemma generate_run (ctx : cordovaContext) (prefs : pluginPreferences) (s : State text) :
  let '(s', r) := generateEntitlements ctx prefs s in
  (files (st_fs s'), r) = gen_effect (st_fs s) (dbg_path ctx s) (rel_path ctx s) prefs /\
  can_create (st_fs s') = can_create (st_fs s) /\
  can_write (st_fs s') = can_write (st_fs s) /\
  st_context s' = Some ctx /\
  dbg_path ctx s' = dbg_path ctx s /\
  rel_path ctx s' = rel_path ctx s /\
  st_debugPath s' = Some (dbg_path ctx s) /\
  (r = Ok tt -> st_releasePath s' = Some (rel_path ctx s)).
Proof.
  destruct s as [[fl cc cw] c n dpc rpc].
  destruct n, dpc, rpc;
  cbv [generateEntitlements getDebugEntitlementsFileContent getReleaseEntitlementsFileContent
       saveContentToEntitlementsFile pathToDebugEntitlementsFile pathToReleaseEntitlementsFile
       getProjectRoot getProjectName getContext configXmlHelper_getProjectName
       readFileSync mkpath_sync writeFileSync plist_parse_m try_catch bind ret throw modify
       set_context set_projectName set_debugPath set_releasePath set_fs
       gen_effect save_effect read_doc dbg_path rel_path proj_name
       st_fs st_context st_projectName st_debugPath st_releasePath files can_create can_write];
  case_matches; repeat split; try discriminate; try congruence.
Qed.

Lemma path_eqb_refl (p : path) : path_eqb p p = true.
Proof. unfold path_eqb. destruct (list_eq_dec string_dec p p); congruence. Qed.

Lemma path_eqb_eq (p q : path) : path_eqb p q = true -> p = q.
Proof. unfold path_eqb. destruct (list_eq_dec string_dec p q); congruence. Qed.

Lemma injectPreferences_idem (d : doc) (prefs : pluginPreferences) :
  injectPreferences (injectPreferences d prefs) prefs = injectPreferences d prefs.
Proof. unfold injectPreferences. apply obj_set_set. Qed.

Lemma path_eqb_neq (p q : path) : p <> q -> path_eqb p q = false.
Proof. unfold path_eqb. destruct (list_eq_dec string_dec p q); congruence. Qed.

Ltac solve_effect :=
  repeat (case_matches; rewrite ?path_eqb_refl in *;
          repeat match goal with
                 | H : path_eqb _ _ = true |- _ => apply path_eqb_eq in H; subst
                 | H : Some _ = Some _ |- _ => injection H as H; subst
                 | H : Ok _ = Ok _ |- _ => injection H as H; subst
                 end; cbn [fst snd] in *; try congruence).

(** Paths other than the two targets are never written. *)
Lemma gen_effect_frame (f : FS text) (dp rp : path) (prefs : pluginPreferences) (p : path) :
  p <> dp -> p <> rp -> fst (gen_effect f dp rp prefs) p = files f p.
Proof.
  intros Hd Hr. destruct f as [g cc cw].
  unfold gen_effect, read_doc, save_effect, upd_file; cbn [files can_create can_write].
  solve_effect.
  all: rewrite ?(path_eqb_neq p dp Hd), ?(path_eqb_neq p rp Hr); reflexivity.
Qed.

(** A run that returns normally has read both targets and written both. *)
Lemma gen_effect_ok (f : FS text) (dp rp : path) (prefs : pluginPreferences) :
  snd (gen_effect f dp rp prefs) = Ok tt ->
  exists dd rd,
    read_doc (files f dp) = Ok dd /\ read_doc (files f rp) = Ok rd /\
    fst (gen_effect f dp rp prefs) dp = Some (plist_build (injectPreferences dd prefs)) /\
    fst (gen_effect f dp rp prefs) rp = Some (plist_build (injectPreferences rd prefs)).
Proof.
  destruct f as [g cc cw].
  unfold gen_effect, save_effect, upd_file; cbn [files can_create can_write].
  intros H.
  destruct (read_doc (g dp)) as [dd|e] eqn:Ed; [|discriminate].
  destruct (read_doc (g rp)) as [rd|e] eqn:Er; [|discriminate].
  exists dd, rd. split; [reflexivity|]. split; [reflexivity|].
  destruct (cc (dirname dp)), (cc (dirname rp)), (cw dp), (cw rp); cbn in H; try discriminate.
  cbn [fst]. rewrite !path_eqb_refl.
  split; [|reflexivity].
  destruct (path_eqb dp rp) eqn:E; [|reflexivity].
  apply path_eqb_eq in E; subst rp. congruence.
Qed.

Lemma generate_fresh_projectName (ctx : cordovaContext) (prefs : pluginPreferences) (s : State text) :
  st_projectName s = None -> st_debugPath s = None -> st_releasePath s = None ->
  st_projectName (fst (generateEntitlements ctx prefs s)) = Some (configProjectName ctx).
Proof.
  destruct s as [[fl cc cw] c n dpc rpc]; cbn [st_projectName st_debugPath st_releasePath].
  intros -> -> ->.
  cbv [generateEntitlements getDebugEntitlementsFileContent getReleaseEntitlementsFileContent
       saveContentToEntitlementsFile pathToDebugEntitlementsFile pathToReleaseEntitlementsFile
       getProjectRoot getProjectName getContext configXmlHelper_getProjectName
       readFileSync mkpath_sync writeFileSync plist_parse_m try_catch bind ret throw modify
       set_context set_projectName set_debugPath set_releasePath set_fs fst
       st_fs st_context st_projectName st_debugPath st_releasePath files can_create can_write].
  case_matches; reflexivity.
Qed.

Lemma generate_keeps_projectName (ctx : cordovaContext) (prefs : pluginPreferences)
  (s : State text) (n : string) :
  st_projectName s = Some n ->
  st_projectName (fst (generateEntitlements ctx prefs s)) = Some n.
Proof.
  destruct s as [[fl cc cw] c n' dpc rpc]; cbn [st_projectName]. intros ->.
  destruct dpc, rpc;
  cbv [generateEntitlements getDebugEntitlementsFileContent getReleaseEntitlementsFileContent
       saveContentToEntitlementsFile pathToDebugEntitlementsFile pathToReleaseEntitlementsFile
       getProjectRoot getProjectName getContext configXmlHelper_getProjectName
       readFileSync mkpath_sync writeFileSync plist_parse_m try_catch bind ret throw modify
       set_context set_projectName set_debugPath set_releasePath set_fs fst
       st_fs st_context st_projectName st_debugPath st_releasePath files can_create can_write];
  case_matches; reflexivity.
Qed.

Section Roundtrip.

(** [plist.parse] reads back what [plist.build] writes. *)
Hypothesis plist_roundtrip : forall d, plist_parse (plist_build d) = Some d.

Lemma gen_effect_idem (f : FS text) (dp rp : path) (prefs : pluginPreferences) :
  forall p, fst (gen_effect (mkFS (fst (gen_effect f dp rp prefs)) (can_create f) (can_write f))
                            dp rp prefs) p
            = fst (gen_effect f dp rp prefs) p.
Proof.
  intros p. destruct f as [g cc cw].
  unfold gen_effect, read_doc, save_effect, upd_file; cbn [files can_create can_write fst].
  rewrite ?path_eqb_refl.
  repeat (case_matches; rewrite ?path_eqb_refl, ?plist_roundtrip, ?injectPreferences_idem in *;
          repeat match goal with
                 | H : path_eqb _ _ = true |- _ => apply path_eqb_eq in H; subst
                 | H : Some _ = Some _ |- _ => injection H as H; subst
                 end; cbn [fst] in *; rewrite ?injectPreferences_idem; try congruence).
Qed.

(** C4: running [generateEntitlements] a second time with the same context
    and host list leaves every file, in particular the two entitlements
    files, as the first run left it, whatever the first run met (missing,
    present or malformed files, refused directories or writes). *)
Theorem generate_idempotent (ctx : cordovaContext) (prefs : pluginPreferences) (s : State text) :
  let '(s1, _) := generateEntitlements ctx prefs s in
  let '(s2, _) := generateEntitlements ctx prefs s1 in
  forall p, files (st_fs s2) p = files (st_fs s1) p.
Proof.
  pose proof (generate_run ctx prefs s) as G1.
  destruct (generateEntitlements ctx prefs s) as [s1 r1].
  destruct G1 as (E1 & Hc1 & Hw1 & _ & Hd1 & Hr1 & _).
  pose proof (generate_run ctx prefs s1) as G2.
  destruct (generateEntitlements ctx prefs s1) as [s2 r2].
  destruct G2 as (E2 & _).
  intros p.
  rewrite Hd1, Hr1 in E2.
  apply (f_equal fst) in E1, E2. cbn [fst] in E1, E2.
  rewrite E2.
  destruct (st_fs s1) as [g1 cc1 cw1]. cbn [files can_create can_write] in *.
  subst g1 cc1 cw1.
  apply gen_effect_idem.
Qed.

(** C6: when neither entitlements file exists, a run that completes leaves
    both files holding a serialised property list that parses to a document
    whose only key is [com.apple.developer.associated-domains]. *)
Theorem missing_files_created (ctx : cordovaContext) (prefs : pluginPreferences) (s : State text) :
  files (st_fs s) (dbg_path ctx s) = None ->
  files (st_fs s) (rel_path ctx s) = None ->
  let '(s', r) := generateEntitlements ctx prefs s in
  r = Ok tt ->
  forall p, p = dbg_path ctx s \/ p = rel_path ctx s ->
  exists t d, files (st_fs s') p = Some t /\ plist_parse t = Some d /\
              map fst d = [ASSOCIATED_DOMAINS].
Proof.
  intros Nd Nr.
  pose proof (generate_run ctx prefs s) as G.
  destruct (generateEntitlements ctx prefs s) as [s' r].
  destruct G as (E & _). intros Hok p Hp.
  subst r.
  destruct (gen_effect_ok (st_fs s) (dbg_path ctx s) (rel_path ctx s) prefs)
    as (dd & rd & Rd & Rr & Wd & Wr); [rewrite <- E; reflexivity|].
  rewrite Nd in Rd. rewrite Nr in Rr. cbn in Rd, Rr.
  injection Rd as <-. injection Rr as <-.
  apply (f_equal fst) in E. cbn [fst] in E. rewrite E.
  destruct Hp as [-> | ->].
  - eexists; eexists. split; [exact Wd|]. split; [apply plist_roundtrip|reflexivity].
  - eexists; eexists. split; [exact Wr|]. split; [apply plist_roundtrip|reflexivity].
Qed.

End Roundtrip.

(** C2 (as the code does it): the [try] covers the read only.  A target file
    that exists but does not parse makes [generateEntitlements] throw the
    parse error; nothing is written. *)
Theorem malformed_file_propagates (ctx : cordovaContext) (prefs : pluginPreferences)
  (s : State text) (t : text) :
  plist_parse t = None ->
  files (st_fs s) (dbg_path ctx s) = Some t \/ files (st_fs s) (rel_path ctx s) = Some t ->
  let '(s', r) := generateEntitlements ctx prefs s in
  r = Throw EParse /\ files (st_fs s') = files (st_fs s).
Proof.
  intros Hp Hf.
  pose proof (generate_run ctx prefs s) as G.
  destruct (generateEntitlements ctx prefs s) as [s' r].
  destruct G as (E & _).
  unfold gen_effect in E.
  destruct Hf as [Hf|Hf].
  - rewrite Hf in E. cbn [read_doc] in E. rewrite Hp in E. now injection E as -> ->.
  - rewrite Hf in E. cbn [read_doc] in E. rewrite Hp in E.
    destruct (read_doc (files (st_fs s) (dbg_path ctx s))) as [dd|e] eqn:Rd.
    + now injection E as -> ->.
    + injection E as -> ->. split; [|reflexivity].
      unfold read_doc in Rd.
      destruct (files (st_fs s) (dbg_path ctx s)); [|discriminate].
      destruct (plist_parse t0); congruence.
Qed.


(** C7: file-system errors of the writing phase are not caught: the first
    refused [mkpath.sync] or [fs.writeFileSync] ends the run with its own
    exception, nothing after it runs, and nothing already written is undone
    or retried. *)
Theorem fs_errors_propagate (ctx : cordovaContext) (prefs : pluginPreferences) (s : State text)
  (dd rd : doc) :
  let f := st_fs s in
  let dp := dbg_path ctx s in
  let rp := rel_path ctx s in
  read_doc (files f dp) = Ok dd ->
  read_doc (files f rp) = Ok rd ->
  let '(s', r) := generateEntitlements ctx prefs s in
  (can_create f (dirname dp) = false ->
     r = Throw (EMkdir (dirname dp)) /\ files (st_fs s') = files f) /\
  (can_create f (dirname dp) = true -> can_create f (dirname rp) = false ->
     r = Throw (EMkdir (dirname rp)) /\ files (st_fs s') = files f) /\
  (can_create f (dirname dp) = true -> can_create f (dirname rp) = true ->
   can_write f dp = false ->
     r = Throw (EWrite dp) /\ files (st_fs s') = files f) /\
  (can_create f (dirname dp) = true -> can_create f (dirname rp) = true ->
   can_write f dp = true -> can_write f rp = false ->
     r = Throw (EWrite rp) /\
     files (st_fs s') = upd_file dp (plist_build (injectPreferences dd prefs)) (files f)).
Proof.
  intros f dp rp Rd Rr.
  pose proof (generate_run ctx prefs s) as G.
  destruct (generateEntitlements ctx prefs s) as [s' r].
  destruct G as (E & _).
  fold f dp rp in E.
  unfold gen_effect in E. rewrite Rd, Rr in E. unfold save_effect in E.
  repeat split; intros;
    repeat match goal with H : _ = true |- _ => rewrite H in E | H : _ = false |- _ => rewrite H in E end;
    injection E as E1 E2; first [exact E1 | exact E2].
Qed.

(** C8: the debug and the release documents go through the same
    [injectPreferences]: a completed run stores the same associated-domains
    value in both, and two targets that started with the same content end
    with the same content. *)
Theorem debug_release_same_transformation (ctx : cordovaContext)
  (prefs : pluginPreferences) (s : State text) :
  let dp := dbg_path ctx s in
  let rp := rel_path ctx s in
  let '(s', r) := generateEntitlements ctx prefs s in
  r = Ok tt ->
  (exists dd rd,
     files (st_fs s') dp = Some (plist_build (injectPreferences dd prefs)) /\
     files (st_fs s') rp = Some (plist_build (injectPreferences rd prefs)) /\
     obj_get ASSOCIATED_DOMAINS (injectPreferences dd prefs)
     = obj_get ASSOCIATED_DOMAINS (injectPreferences rd prefs)) /\
  (files (st_fs s) dp = files (st_fs s) rp -> files (st_fs s') dp = files (st_fs s') rp).
Proof.
  intros dp rp.
  pose proof (generate_run ctx prefs s) as G.
  destruct (generateEntitlements ctx prefs s) as [s' r].
  destruct G as (E & _). intros ->.
  fold dp rp in E.
  destruct (gen_effect_ok (st_fs s) dp rp prefs)
    as (dd & rd & Rd & Rr & Wd & Wr); [rewrite <- E; reflexivity|].
  apply (f_equal fst) in E. cbn [fst] in E. rewrite E.
  split.
  - exists dd, rd. split; [exact Wd|]. split; [exact Wr|].
    now rewrite !(proj2 (injectPreferences_frame _ prefs)).
  - intros Same. rewrite Wd, Wr. rewrite Same in Rd. rewrite Rd in Rr.
    now injection Rr as ->.
Qed.

(** C9: the project name and the two paths are memoised in module
    variables.  After a first completed run from a freshly loaded module,
    a second run with any other context resolves the first run's paths,
    writes there, and touches no other file. *)
Theorem paths_memoised (ctx1 ctx2 : cordovaContext) (prefs1 prefs2 : pluginPreferences)
  (s : State text) :
  st_projectName s = None -> st_debugPath s = None -> st_releasePath s = None ->
  let dp1 := projectRoot ctx1 ++ ["platforms"; "ios"; configProjectName ctx1; "Entitlements-Debug.plist"] in
  let rp1 := projectRoot ctx1 ++ ["platforms"; "ios"; configProjectName ctx1; "Entitlements-Release.plist"] in
  let '(s1, r1) := generateEntitlements ctx1 prefs1 s in
  r1 = Ok tt ->
  st_projectName s1 = Some (configProjectName ctx1) /\
  st_debugPath s1 = Some dp1 /\ st_releasePath s1 = Some rp1 /\
  let '(s2, r2) := generateEntitlements ctx2 prefs2 s1 in
  dbg_path ctx2 s1 = dp1 /\ rel_path ctx2 s1 = rp1 /\
  st_projectName s2 = Some (configProjectName ctx1) /\
  (forall p, p <> dp1 -> p <> rp1 -> files (st_fs s2) p = files (st_fs s1) p) /\
  (r2 = Ok tt ->
   exists dd rd, files (st_fs s2) dp1 = Some (plist_build (injectPreferences dd prefs2)) /\
                 files (st_fs s2) rp1 = Some (plist_build (injectPreferences rd prefs2))).
Proof.
  intros Hn Hd Hr dp1 rp1.
  pose proof (generate_fresh_projectName ctx1 prefs1 s Hn Hd Hr) as Hname.
  pose proof (generate_run ctx1 prefs1 s) as G1.
  destruct (generateEntitlements ctx1 prefs1 s) as [s1 r1].
  cbn [fst] in Hname.
  destruct G1 as (_ & _ & _ & _ & _ & _ & Hdc & Hrc). intros Hok.
  assert (D : dbg_path ctx1 s = dp1) by (unfold dbg_path, proj_name; now rewrite Hd, Hn).
  assert (R : rel_path ctx1 s = rp1) by (unfold rel_path, proj_name; now rewrite Hr, Hn).
  rewrite D in Hdc. rewrite R in Hrc by exact Hok.
  specialize (Hrc Hok).
  split; [exact Hname|]. split; [exact Hdc|]. split; [exact Hrc|].
  assert (D2 : dbg_path ctx2 s1 = dp1) by (unfold dbg_path; now rewrite Hdc).
  assert (R2 : rel_path ctx2 s1 = rp1) by (unfold rel_path; now rewrite Hrc).
  pose proof (generate_run ctx2 prefs2 s1) as G2.
  pose proof (generate_keeps_projectName ctx2 prefs2 s1 _ Hname) as Hname2.
  destruct (generateEntitlements ctx2 prefs2 s1) as [s2 r2].
  cbn [fst] in Hname2.
  destruct G2 as (E2 & _ & _ & _ & _ & _ & _ & _).
  rewrite D2, R2 in E2.
  split; [exact D2|]. split; [exact R2|].
  split; [|split].
  - exact Hname2.
  - intros p Hp1 Hp2. apply (f_equal fst) in E2. cbn [fst] in E2. rewrite E2.
    now apply gen_effect_frame.
  - intros ->.
    destruct (gen_effect_ok (st_fs s1) dp1 rp1 prefs2)
      as (dd & rd & _ & _ & Wd & Wr); [rewrite <- E2; reflexivity|].
    apply (f_equal fst) in E2. cbn [fst] in E2. rewrite E2.
    now exists dd, rd.
Qed.

(** C10: the content a completed run writes to each target depends only on
    the host list and on that target's previous content: two completed runs
    with the same context and host list over targets with the same content
    write the same text to each target. *)
Theorem generate_deterministic (ctx : cordovaContext) (prefs : pluginPreferences)
  (s1 s2 : State text) :
  files (st_fs s1) (dbg_path ctx s1) = files (st_fs s2) (dbg_path ctx s2) ->
  files (st_fs s1) (rel_path ctx s1) = files (st_fs s2) (rel_path ctx s2) ->
  let '(s1', r1) := generateEntitlements ctx prefs s1 in
  let '(s2', r2) := generateEntitlements ctx prefs s2 in
  r1 = Ok tt -> r2 = Ok tt ->
  files (st_fs s1') (dbg_path ctx s1) = files (st_fs s2') (dbg_path ctx s2) /\
  files (st_fs s1') (rel_path ctx s1) = files (st_fs s2') (rel_path ctx s2).
Proof.
  intros Sd Sr.
  pose proof (generate_run ctx prefs s1) as G1.
  destruct (generateEntitlements ctx prefs s1) as [s1' r1].
  pose proof (generate_run ctx prefs s2) as G2.
  destruct (generateEntitlements ctx prefs s2) as [s2' r2].
  destruct G1 as (E1 & _). destruct G2 as (E2 & _).
  intros -> ->.
  destruct (gen_effect_ok (st_fs s1) (dbg_path ctx s1) (rel_path ctx s1) prefs)
    as (dd1 & rd1 & Rd1 & Rr1 & Wd1 & Wr1); [rewrite <- E1; reflexivity|].
  destruct (gen_effect_ok (st_fs s2) (dbg_path ctx s2) (rel_path ctx s2) prefs)
    as (dd2 & rd2 & Rd2 & Rr2 & Wd2 & Wr2); [rewrite <- E2; reflexivity|].
  apply (f_equal fst) in E1, E2. cbn [fst] in E1, E2. rewrite E1, E2.
  rewrite Wd1, Wr1, Wd2, Wr2.
  rewrite Sd, Rd2 in Rd1. rewrite Sr, Rr2 in Rr1.
  injection Rd1 as ->. injection Rr1 as ->. split; reflexivity.
Qed.

(** ** Further properties of the module *)

Lemma existsb_eqb_false_not_in (x : string) (l : list string) :
  existsb (String.eqb x) l = false -> ~ In x l.
Proof.
  intros H Hin.
  assert (E : existsb (String.eqb x) l = true)
    by (apply existsb_exists; exists x; split; [exact Hin|apply String.eqb_refl]).
  congruence.
Qed.

Lemma NoDup_snoc {A : Type} (l : list A) (x : A) :
  NoDup l -> ~ In x l -> NoDup (l ++ [x]).
Proof.
  intros Hl Hx. apply NoDup_app; [exact Hl| constructor; [intros []|constructor] |].
  intros a Ha [<-|[]]. exact (Hx Ha).
Qed.

Lemma fold_addLink_NoDup (hs : list host) (acc : list string) :
  NoDup acc -> NoDup (fold_left addLink hs acc).
Proof.
  revert acc. induction hs as [|h r IH]; intros acc Hacc; cbn [fold_left]; [exact Hacc|].
  apply IH. unfold addLink.
  destruct (existsb (String.eqb (domainsListEntryForHost h)) acc) eqn:E; [exact Hacc|].
  apply NoDup_snoc; [exact Hacc|]. now apply existsb_eqb_false_not_in.
Qed.

(** X1: the associated-domains list never holds the same entry twice. *)
Theorem associated_domains_NoDup (prefs : pluginPreferences) :
  NoDup (generateAssociatedDomainsContent prefs).
Proof. apply fold_addLink_NoDup. constructor. Qed.

Lemma fold_addLink_In (hs : list host) (acc : list string) (x : string) :
  In x (fold_left addLink hs acc) <->
  In x acc \/ exists h, In h hs /\ x = domainsListEntryForHost h.
Proof.
  revert acc. induction hs as [|h r IH]; intros acc; cbn [fold_left].
  - split; [now left|]. intros [H|(h & [] & _)]; exact H.
  - rewrite IH. unfold addLink.
    destruct (existsb (String.eqb (domainsListEntryForHost h)) acc) eqn:E.
    + apply existsb_exists in E as (y & Hy & Ey). apply String.eqb_eq in Ey. subst y.
      split.
      * intros [H|(h' & Hh' & ->)]; [now left|right; exists h'; split; [now right|reflexivity]].
      * intros [H|(h' & [<-|Hh'] & ->)]; [now left|now left|right; now exists h'].
    + rewrite in_app_iff. split.
      * intros [[H|[<-|[]]]|(h' & Hh' & ->)];
          [now left|right; exists h; split; [now left|reflexivity]
          |right; exists h'; split; [now right|reflexivity]].
      * intros [H|(h' & [<-|Hh'] & ->)];
          [now left; left|left; right; now left|right; now exists h'].
Qed.

(** X2: a string is in the associated-domains list exactly when it is
    ["applinks:" ++ name] for some host of the preferences. *)
Theorem associated_domains_In (prefs : pluginPreferences) (x : string) :
  In x (generateAssociatedDomainsContent prefs) <->
  exists h, In h (hosts prefs) /\ x = String.append "applinks:" (name h).
Proof.
  unfold generateAssociatedDomainsContent. rewrite fold_addLink_In.
  split; [intros [[]|H]; exact H|intros H; now right].
Qed.

Lemma fold_addLink_length (hs : list host) (acc : list string) :
  length (fold_left addLink hs acc) <= length acc + length hs.
Proof.
  revert acc. induction hs as [|h r IH]; intros acc; cbn [fold_left length]; [lia|].
  eapply Nat.le_trans; [apply IH|]. unfold addLink.
  destruct (existsb _ acc); [lia|]. rewrite length_app. cbn [length]. lia.
Qed.

(** X3: the associated-domains list has at most one entry per host. *)
Theorem associated_domains_length (prefs : pluginPreferences) :
  length (generateAssociatedDomainsContent prefs) <= length (hosts prefs).
Proof. apply fold_addLink_length. Qed.

Lemma fold_addLink_extends (hs : list host) (acc : list string) :
  exists suffix, fold_left addLink hs acc = acc ++ suffix.
Proof.
  revert acc. induction hs as [|h r IH]; intros acc; cbn [fold_left].
  - exists []. now rewrite app_nil_r.
  - destruct (IH (addLink acc h)) as (suf & ->). unfold addLink.
    destruct (existsb _ acc); [now exists suf|].
    exists (domainsListEntryForHost h :: suf). now rewrite <- app_assoc.
Qed.

(** X4: appending hosts to the preferences only appends entries: the list
    computed for [l1] is a prefix of the list computed for [l1 ++ l2]. *)
Theorem associated_domains_prefix (l1 l2 : list host) :
  exists suffix,
    generateAssociatedDomainsContent (mkPrefs (l1 ++ l2))
    = generateAssociatedDomainsContent (mkPrefs l1) ++ suffix.
Proof.
  unfold generateAssociatedDomainsContent. cbn [hosts].
  rewrite fold_left_app. apply fold_addLink_extends.
Qed.

Lemma obj_set_keys (k : string) (v : pvalue) (o : doc) :
  map fst (obj_set k v o) =
  if existsb (String.eqb k) (map fst o) then map fst o else map fst o ++ [k].
Proof.
  induction o as [|[k' v'] r IH]; cbn [obj_set map fst existsb]; [reflexivity|].
  destruct (String.eqb k k') eqn:E; cbn [orb map fst].
  - apply String.eqb_eq in E. now subst.
  - rewrite IH. now destruct (existsb (String.eqb k) (map fst r)).
Qed.

(** X5: [injectPreferences] keeps the keys of the document in their order;
    the associated-domains key keeps its place when present and is added last
    otherwise. *)
Theorem injectPreferences_keys (d : doc) (prefs : pluginPreferences) :
  map fst (injectPreferences d prefs) =
  if existsb (String.eqb ASSOCIATED_DOMAINS) (map fst d) then map fst d
  else map fst d ++ [ASSOCIATED_DOMAINS].
Proof. apply obj_set_keys. Qed.

(** X6: a document with distinct keys still has distinct keys after
    [injectPreferences]. *)
Theorem injectPreferences_keys_NoDup (d : doc) (prefs : pluginPreferences) :
  NoDup (map fst d) -> NoDup (map fst (injectPreferences d prefs)).
Proof.
  intros H. rewrite injectPreferences_keys.
  destruct (existsb (String.eqb ASSOCIATED_DOMAINS) (map fst d)) eqn:E; [exact H|].
  apply NoDup_snoc; [exact H|]. now apply existsb_eqb_false_not_in.
Qed.

(** X7: injecting the same preferences twice is the same as once. *)
Theorem injectPreferences_twice (d : doc) (prefs : pluginPreferences) :
  injectPreferences (injectPreferences d prefs) prefs = injectPreferences d prefs.
Proof. apply injectPreferences_idem. Qed.

Ltac unfold_module :=
  cbv [generateEntitlements getDebugEntitlementsFileContent getReleaseEntitlementsFileContent
       saveContentToEntitlementsFile pathToDebugEntitlementsFile pathToReleaseEntitlementsFile
       getProjectRoot getProjectName getContext configXmlHelper_getProjectName
       readFileSync mkpath_sync writeFileSync plist_parse_m try_catch bind ret throw modify
       set_context set_projectName set_debugPath set_releasePath set_fs fst snd
       dbg_path rel_path proj_name
       st_fs st_context st_projectName st_debugPath st_releasePath files can_create can_write].

Ltac read_tail :=
  repeat match goal with
         | H1 : ?x = Some _, H2 : ?x = Some _ |- _ =>
             rewrite H1 in H2; injection H2 as H2; subst
         | H : Some _ = Some _ |- _ => injection H as H; subst
         end;
  repeat match goal with
         | H : plist_parse ?t = _ |- context [plist_parse ?t] => rewrite H
         end;
  congruence.

(** X8: reading the debug file changes no file and memoises its path; a
    missing file reads as the empty document, an existing one as what
    [plist.parse] makes of it, its error included. *)
Theorem getDebugEntitlementsFileContent_reads (c : cordovaContext) (s : State text) :
  st_context s = Some c ->
  let '(s', r) := getDebugEntitlementsFileContent s in
  st_fs s' = st_fs s /\ st_debugPath s' = Some (dbg_path c s) /\
  (files (st_fs s) (dbg_path c s) = None -> r = Ok defaultEntitlementsFile) /\
  (forall t, files (st_fs s) (dbg_path c s) = Some t ->
             r = match plist_parse t with Some d => Ok d | None => Throw EParse end).
Proof.
  destruct s as [[fl cc cw] c0 n dpc rpc]; cbn [st_context]; intros ->.
  destruct n, dpc; unfold_module; case_matches; repeat split; intros; read_tail.
Qed.

(** X9: the same for the release file. *)
Theorem getReleaseEntitlementsFileContent_reads (c : cordovaContext) (s : State text) :
  st_context s = Some c ->
  let '(s', r) := getReleaseEntitlementsFileContent s in
  st_fs s' = st_fs s /\ st_releasePath s' = Some (rel_path c s) /\
  (files (st_fs s) (rel_path c s) = None -> r = Ok defaultEntitlementsFile) /\
  (forall t, files (st_fs s) (rel_path c s) = Some t ->
             r = match plist_parse t with Some d => Ok d | None => Throw EParse end).
Proof.
  destruct s as [[fl cc cw] c0 n dpc rpc]; cbn [st_context]; intros ->.
  destruct n, rpc; unfold_module; case_matches; repeat split; intros; read_tail.
Qed.

(** X10: [generateEntitlements] only ever throws a parse error, a refused
    [mkpath.sync] or a refused write: a missing file never escapes, and the
    context is always set before it is read. *)
Theorem generate_exceptions (ctx : cordovaContext) (prefs : pluginPreferences)
  (s : State text) (e : exn) :
  snd (generateEntitlements ctx prefs s) = Throw e ->
  e = EParse \/ (exists d, e = EMkdir d) \/ (exists p, e = EWrite p).
Proof.
  pose proof (generate_run ctx prefs s) as G.
  destruct (generateEntitlements ctx prefs s) as [s' r]. cbn [snd]. intros ->.
  destruct G as (E & _). apply (f_equal snd) in E. cbn [snd] in E.
  unfold gen_effect, read_doc, save_effect in E. revert E.
  case_matches; cbn [snd]; intros E; try discriminate; injection E as E; subst e;
    first [now left | right; left; eexists; reflexivity | right; right; eexists; reflexivity].
Qed.

(** X11: [generateEntitlements] writes no file other than the two paths the
    module resolves. *)
Theorem generate_touches_only_targets (ctx : cordovaContext) (prefs : pluginPreferences)
  (s : State text) (p : path) :
  p <> dbg_path ctx s -> p <> rel_path ctx s ->
  files (st_fs (fst (generateEntitlements ctx prefs s))) p = files (st_fs s) p.
Proof.
  intros Hd Hr.
  pose proof (generate_run ctx prefs s) as G.
  destruct (generateEntitlements ctx prefs s) as [s' r]. cbn [fst].
  destruct G as (E & _). apply (f_equal fst) in E. cbn [fst] in E. rewrite E.
  now apply gen_effect_frame.
Qed.

Lemma dirname_join (r : path) (a b n f : string) :
  dirname (r ++ [a; b; n; f]) = r ++ [a; b; n].
Proof.
  unfold dirname. change [a; b; n; f] with ([a; b; n] ++ [f]).
  rewrite app_assoc, removelast_app by discriminate. cbn. now rewrite app_nil_r.
Qed.

(** X12: in a module that has not memoised the paths yet, the debug and the
    release paths are two different files of the same directory
    [<projectRoot>/platforms/ios/<projectName>]. *)
Theorem entitlements_paths_same_directory (c : cordovaContext) (s : State text) :
  st_context s = Some c -> st_debugPath s = None -> st_releasePath s = None ->
  let '(s1, r1) := pathToDebugEntitlementsFile s in
  let '(s2, r2) := pathToReleaseEntitlementsFile s1 in
  exists p1 p2, r1 = Ok p1 /\ r2 = Ok p2 /\ p1 <> p2 /\
    dirname p1 = projectRoot c ++ ["platforms"; "ios"; proj_name c s] /\
    dirname p2 = projectRoot c ++ ["platforms"; "ios"; proj_name c s].
Proof.
  destruct s as [[fl cc cw] c0 n dpc rpc]; cbn [st_context st_debugPath st_releasePath].
  intros -> -> ->.
  destruct n; unfold_module;
    (eexists; eexists; split; [reflexivity|]; split; [reflexivity|]; split;
     [intros H; apply app_inv_head in H; discriminate H
     |split; apply dirname_join]).
Qed.

(** X13: [pathToDebugEntitlementsFile] is memoised: calling it again
    returns the same path and changes nothing. *)
Theorem pathToDebugEntitlementsFile_memo (s s1 : State text) (p : path) :
  pathToDebugEntitlementsFile s = (s1, Ok p) ->
  pathToDebugEntitlementsFile s1 = (s1, Ok p).
Proof.
  destruct s as [[fl cc cw] c n dpc rpc].
  destruct c, n, dpc; unfold_module; intros H; injection H as <- <-; reflexivity.
Qed.

(** X14: [pathToReleaseEntitlementsFile] is memoised in the same way. *)
Theorem pathToReleaseEntitlementsFile_memo (s s1 : State text) (p : path) :
  pathToReleaseEntitlementsFile s = (s1, Ok p) ->
  pathToReleaseEntitlementsFile s1 = (s1, Ok p).
Proof.
  destruct s as [[fl cc cw] c n dpc rpc].
  destruct c, n, rpc; unfold_module; intros H; injection H as <- <-; reflexivity.
Qed.

(** X15: called before any context was recorded, a path helper that has not
    memoised its path throws the [TypeError] of [context.opts] on
    [undefined]. *)
Theorem pathToDebugEntitlementsFile_no_context (s : State text) :
  st_context s = None -> st_debugPath s = None ->
  snd (pathToDebugEntitlementsFile s) = Throw ETypeError.
Proof.
  destruct s as [[fl cc cw] c n dpc rpc]; cbn [st_context st_debugPath]. intros -> ->.
  reflexivity.
Qed.

End Plist.

(** ** Witnesses and counterexamples *)

(** C2 fails as stated: an existing debug file that does not parse is not
    treated as a missing one (which reads as the empty document); the parse
    error escapes [generateEntitlements] and the file is not overwritten. *)
Lemma malformed_file_not_recovered :
  snd (getDebugEntitlementsFileContent _ example_parse (set_context ctx_app st_malformed))
  = Throw EParse /\
  snd (getDebugEntitlementsFileContent _ example_parse (set_context ctx_app st_empty))
  = Ok defaultEntitlementsFile /\
  snd (generateEntitlements _ example_build example_parse ctx_app prefs_ab st_malformed)
  = Throw EParse /\
  files (st_fs (fst (generateEntitlements _ example_build example_parse ctx_app prefs_ab
                                          st_malformed))) app_debug = Some None.
Proof. vm_compute. repeat split. Qed.

Lemma malformed_file_propagates_witness :
  example_parse None = None /\
  (files (st_fs st_malformed) (dbg_path _ ctx_app st_malformed) = Some None \/
   files (st_fs st_malformed) (rel_path _ ctx_app st_malformed) = Some None) /\
  (let '(s', r) := generateEntitlements _ example_build example_parse ctx_app prefs_ab st_malformed in
   r = Throw EParse /\ files (st_fs s') = files (st_fs st_malformed)).
Proof.
  split; [reflexivity|]. split; [left; vm_compute; reflexivity|].
  apply (malformed_file_propagates _ example_build example_parse ctx_app prefs_ab st_malformed None).
  - reflexivity.
  - left. vm_compute. reflexivity.
Defined.

Lemma generate_idempotent_witness :
  (forall d, example_parse (example_build d) = Some d) /\
  (let '(s1, _) := generateEntitlements _ example_build example_parse ctx_app prefs_ab st_other_key in
   let '(s2, _) := generateEntitlements _ example_build example_parse ctx_app prefs_ab s1 in
   forall p, files (st_fs s2) p = files (st_fs s1) p).
Proof.
  split; [intros d; reflexivity|].
  apply (generate_idempotent _ example_build example_parse (fun d => eq_refl)).
Defined.

Lemma missing_files_created_witness :
  (forall d, example_parse (example_build d) = Some d) /\
  files (st_fs st_empty) (dbg_path _ ctx_app st_empty) = None /\
  files (st_fs st_empty) (rel_path _ ctx_app st_empty) = None /\
  snd (generateEntitlements _ example_build example_parse ctx_app prefs_ab st_empty) = Ok tt /\
  (let '(s', r) := generateEntitlements _ example_build example_parse ctx_app prefs_ab st_empty in
   r = Ok tt ->
   forall p, p = dbg_path _ ctx_app st_empty \/ p = rel_path _ ctx_app st_empty ->
   exists t d, files (st_fs s') p = Some t /\ example_parse t = Some d /\
               map fst d = [ASSOCIATED_DOMAINS]).
Proof.
  split; [intros d; reflexivity|].
  split; [vm_compute; reflexivity|]. split; [vm_compute; reflexivity|].
  split; [vm_compute; reflexivity|].
  apply (missing_files_created _ example_build example_parse (fun d => eq_refl)).
  - vm_compute. reflexivity.
  - vm_compute. reflexivity.
Defined.

(** With the release file refused, the run stops on the write error after the
    debug file has been written. *)
Lemma fs_errors_propagate_witness :
  read_doc _ example_parse (files (st_fs st_release_refused) (dbg_path _ ctx_app st_release_refused))
  = Ok [] /\
  read_doc _ example_parse (files (st_fs st_release_refused) (rel_path _ ctx_app st_release_refused))
  = Ok [] /\
  (let f := st_fs st_release_refused in
   let dp := dbg_path _ ctx_app st_release_refused in
   let rp := rel_path _ ctx_app st_release_refused in
   let '(s', r) := generateEntitlements _ example_build example_parse ctx_app prefs_ab
                                        st_release_refused in
   (can_create f (dirname dp) = false ->
      r = Throw (EMkdir (dirname dp)) /\ files (st_fs s') = files f) /\
   (can_create f (dirname dp) = true -> can_create f (dirname rp) = false ->
      r = Throw (EMkdir (dirname rp)) /\ files (st_fs s') = files f) /\
   (can_create f (dirname dp) = true -> can_create f (dirname rp) = true ->
    can_write f dp = false ->
      r = Throw (EWrite dp) /\ files (st_fs s') = files f) /\
   (can_create f (dirname dp) = true -> can_create f (dirname rp) = true ->
    can_write f dp = true -> can_write f rp = false ->
      r = Throw (EWrite rp) /\
      files (st_fs s') = upd_file dp (example_build (injectPreferences [] prefs_ab)) (files f))).
Proof.
  split; [vm_compute; reflexivity|]. split; [vm_compute; reflexivity|].
  apply (fs_errors_propagate _ example_build example_parse ctx_app prefs_ab
           st_release_refused [] []); vm_compute; reflexivity.
Defined.

Lemma debug_release_same_transformation_witness :
  snd (generateEntitlements _ example_build example_parse ctx_app prefs_ab st_other_key) = Ok tt /\
  (let dp := dbg_path _ ctx_app st_other_key in
   let rp := rel_path _ ctx_app st_other_key in
   let '(s', r) := generateEntitlements _ example_build example_parse ctx_app prefs_ab st_other_key in
   r = Ok tt ->
   (exists dd rd,
      files (st_fs s') dp = Some (example_build (injectPreferences dd prefs_ab)) /\
      files (st_fs s') rp = Some (example_build (injectPreferences rd prefs_ab)) /\
      obj_get ASSOCIATED_DOMAINS (injectPreferences dd prefs_ab)
      = obj_get ASSOCIATED_DOMAINS (injectPreferences rd prefs_ab)) /\
   (files (st_fs st_other_key) dp = files (st_fs st_other_key) rp ->
    files (st_fs s') dp = files (st_fs s') rp)).
Proof.
  split; [vm_compute; reflexivity|].
  exact (debug_release_same_transformation _ example_build example_parse ctx_app prefs_ab
           st_other_key).
Defined.

(** A second run with [ctx_other] after a first one with [ctx_app]. *)
Lemma paths_memoised_witness :
  st_projectName st_empty = None /\ st_debugPath st_empty = None /\
  st_releasePath st_empty = None /\
  (let dp1 := projectRoot ctx_app ++ ["platforms"; "ios"; configProjectName ctx_app; "Entitlements-Debug.plist"] in
   let rp1 := projectRoot ctx_app ++ ["platforms"; "ios"; configProjectName ctx_app; "Entitlements-Release.plist"] in
   let '(s1, r1) := generateEntitlements _ example_build example_parse ctx_app prefs_ab st_empty in
   r1 = Ok tt ->
   st_projectName s1 = Some (configProjectName ctx_app) /\
   st_debugPath s1 = Some dp1 /\ st_releasePath s1 = Some rp1 /\
   let '(s2, r2) := generateEntitlements _ example_build example_parse ctx_other
                                         (mkPrefs [mkHost "x.com"]) s1 in
   dbg_path _ ctx_other s1 = dp1 /\ rel_path _ ctx_other s1 = rp1 /\
   st_projectName s2 = Some (configProjectName ctx_app) /\
   (forall p, p <> dp1 -> p <> rp1 -> files (st_fs s2) p = files (st_fs s1) p) /\
   (r2 = Ok tt ->
    exists dd rd,
      files (st_fs s2) dp1 = Some (example_build (injectPreferences dd (mkPrefs [mkHost "x.com"]))) /\
      files (st_fs s2) rp1 = Some (example_build (injectPreferences rd (mkPrefs [mkHost "x.com"]))))).
Proof.
  split; [reflexivity|]. split; [reflexivity|]. split; [reflexivity|].
  apply (paths_memoised _ example_build example_parse ctx_app ctx_other prefs_ab
           (mkPrefs [mkHost "x.com"]) st_empty); reflexivity.
Defined.

(** Two runs with [ctx_app], one in a fresh module and one in a module that
    memoised the paths of [ctx_other]: both find no file and write the same
    text. *)
Lemma generate_deterministic_witness :
  files (st_fs st_empty) (dbg_path _ ctx_app st_empty)
  = files (st_fs st_cached_other) (dbg_path _ ctx_app st_cached_other) /\
  files (st_fs st_empty) (rel_path _ ctx_app st_empty)
  = files (st_fs st_cached_other) (rel_path _ ctx_app st_cached_other) /\
  (let '(s1', r1) := generateEntitlements _ example_build example_parse ctx_app prefs_ab st_empty in
   let '(s2', r2) := generateEntitlements _ example_build example_parse ctx_app prefs_ab st_cached_other in
   r1 = Ok tt -> r2 = Ok tt ->
   files (st_fs s1') (dbg_path _ ctx_app st_empty)
   = files (st_fs s2') (dbg_path _ ctx_app st_cached_other) /\
   files (st_fs s1') (rel_path _ ctx_app st_empty)
   = files (st_fs s2') (rel_path _ ctx_app st_cached_other)).
Proof.
  split; [vm_compute; reflexivity|]. split; [vm_compute; reflexivity|].
  apply (generate_deterministic _ example_build example_parse ctx_app prefs_ab
           st_empty st_cached_other); vm_compute; reflexivity.
Defined.

(** ** Witnesses of the further properties *)

Lemma injectPreferences_keys_NoDup_witness :
  NoDup (map fst [("other-key", PString "value")]) /\
  NoDup (map fst (injectPreferences [("other-key", PString "value")] prefs_ab)).
Proof.
  assert (H : NoDup (map fst [("other-key", PString "value")]))
    by (constructor; [intros []|constructor]).
  split; [exact H|]. exact (injectPreferences_keys_NoDup _ prefs_ab H).
Defined.

Lemma getDebugEntitlementsFileContent_reads_witness :
  st_context (set_context ctx_app st_malformed) = Some ctx_app /\
  (let s := set_context ctx_app st_malformed in
   let '(s', r) := getDebugEntitlementsFileContent _ example_parse s in
   st_fs s' = st_fs s /\ st_debugPath s' = Some (dbg_path _ ctx_app s) /\
   (files (st_fs s) (dbg_path _ ctx_app s) = None -> r = Ok defaultEntitlementsFile) /\
   (forall t, files (st_fs s) (dbg_path _ ctx_app s) = Some t ->
              r = match example_parse t with Some d => Ok d | None => Throw EParse end)).
Proof.
  split; [reflexivity|].
  exact (getDebugEntitlementsFileContent_reads _ example_parse ctx_app
           (set_context ctx_app st_malformed) eq_refl).
Defined.

Lemma getReleaseEntitlementsFileContent_reads_witness :
  st_context (set_context ctx_app st_empty) = Some ctx_app /\
  (let s := set_context ctx_app st_empty in
   let '(s', r) := getReleaseEntitlementsFileContent _ example_parse s in
   st_fs s' = st_fs s /\ st_releasePath s' = Some (rel_path _ ctx_app s) /\
   (files (st_fs s) (rel_path _ ctx_app s) = None -> r = Ok defaultEntitlementsFile) /\
   (forall t, files (st_fs s) (rel_path _ ctx_app s) = Some t ->
              r = match example_parse t with Some d => Ok d | None => Throw EParse end)).
Proof.
  split; [reflexivity|].
  exact (getReleaseEntitlementsFileContent_reads _ example_parse ctx_app
           (set_context ctx_app st_empty) eq_refl).
Defined.

Lemma generate_exceptions_witness :
  snd (generateEntitlements _ example_build example_parse ctx_app prefs_ab st_release_refused)
  = Throw (EWrite app_release) /\
  (EWrite app_release = EParse \/ (exists d, EWrite app_release = EMkdir d) \/
   (exists p, EWrite app_release = EWrite p)).
Proof.
  assert (H : snd (generateEntitlements _ example_build example_parse ctx_app prefs_ab
                                        st_release_refused) = Throw (EWrite app_release))
    by (vm_compute; reflexivity).
  split; [exact H|].
  exact (generate_exceptions _ example_build example_parse ctx_app prefs_ab
           st_release_refused _ H).
Defined.

Lemma generate_touches_only_targets_witness :
  other_debug <> dbg_path _ ctx_app st_empty /\ other_debug <> rel_path _ ctx_app st_empty /\
  files (st_fs (fst (generateEntitlements _ example_build example_parse ctx_app prefs_ab st_empty)))
        other_debug
  = files (st_fs st_empty) other_debug.
Proof.
  assert (H1 : other_debug <> dbg_path _ ctx_app st_empty) by (vm_compute; discriminate).
  assert (H2 : other_debug <> rel_path _ ctx_app st_empty) by (vm_compute; discriminate).
  split; [exact H1|]. split; [exact H2|].
  exact (generate_touches_only_targets _ example_build example_parse ctx_app prefs_ab
           st_empty other_debug H1 H2).
Defined.

Lemma entitlements_paths_same_directory_witness :
  st_context (set_context ctx_app st_empty) = Some ctx_app /\
  st_debugPath (set_context ctx_app st_empty) = None /\
  st_releasePath (set_context ctx_app st_empty) = None /\
  (let s := set_context ctx_app st_empty in
   let '(s1, r1) := pathToDebugEntitlementsFile _ s in
   let '(s2, r2) := pathToReleaseEntitlementsFile _ s1 in
   exists p1 p2, r1 = Ok p1 /\ r2 = Ok p2 /\ p1 <> p2 /\
     dirname p1 = projectRoot ctx_app ++ ["platforms"; "ios"; proj_name _ ctx_app s] /\
     dirname p2 = projectRoot ctx_app ++ ["platforms"; "ios"; proj_name _ ctx_app s]).
Proof.
  split; [reflexivity|]. split; [reflexivity|]. split; [reflexivity|].
  exact (entitlements_paths_same_directory _ ctx_app (set_context ctx_app st_empty)
           eq_refl eq_refl eq_refl).
Defined.

Lemma pathToDebugEntitlementsFile_memo_witness :
  pathToDebugEntitlementsFile _ (set_context ctx_app st_empty)
  = (set_debugPath app_debug (set_projectName "App" (set_context ctx_app st_empty)), Ok app_debug) /\
  pathToDebugEntitlementsFile _
    (set_debugPath app_debug (set_projectName "App" (set_context ctx_app st_empty)))
  = (set_debugPath app_debug (set_projectName "App" (set_context ctx_app st_empty)), Ok app_debug).
Proof.
  assert (H : pathToDebugEntitlementsFile _ (set_context ctx_app st_empty)
              = (set_debugPath app_debug (set_projectName "App" (set_context ctx_app st_empty)),
                 Ok app_debug)) by reflexivity.
  split; [exact H|]. exact (pathToDebugEntitlementsFile_memo _ _ _ _ H).
Defined.

Lemma pathToReleaseEntitlementsFile_memo_witness :
  pathToReleaseEntitlementsFile _ (set_context ctx_app st_empty)
  = (set_releasePath app_release (set_projectName "App" (set_context ctx_app st_empty)),
     Ok app_release) /\
  pathToReleaseEntitlementsFile _
    (set_releasePath app_release (set_projectName "App" (set_context ctx_app st_empty)))
  = (set_releasePath app_release (set_projectName "App" (set_context ctx_app st_empty)),
     Ok app_release).
Proof.
  assert (H : pathToReleaseEntitlementsFile _ (set_context ctx_app st_empty)
              = (set_releasePath app_release (set_projectName "App" (set_context ctx_app st_empty)),
                 Ok app_release)) by reflexivity.
  split; [exact H|]. exact (pathToReleaseEntitlementsFile_memo _ _ _ _ H).
Defined.

Lemma pathToDebugEntitlementsFile_no_context_witness :
  st_context st_empty = None /\ st_debugPath st_empty = None /\
  snd (pathToDebugEntitlementsFile _ st_empty) = Throw ETypeError.
Proof.
  split; [reflexivity|]. split; [reflexivity|].
  exact (pathToDebugEntitlementsFile_no_context _ st_empty eq_refl eq_refl).
Defined.
